(** * flag_check.py: tag reader, flag validator, flag provisioner

    A shallow embedding of [gfx/flag_check.py] (Mars Revolutions 0.02) and
    the properties of its three functions [read_tags_from_file],
    [validate_flags] and [create_missing_flags].

    Python strings are sequences of Unicode code points, the file system and
    the console are threaded through a small state monad, and the library
    calls the script makes ([str.strip], [re.match], [os.path.join],
    [os.path.isfile], [shutil.copy2], [print]) are modelled next to it. *)

From Stdlib Require Import String Ascii.
From stdpp Require Import gmap list pretty.

Local Open Scope N_scope.

(** ** Python strings *)

(** A [str] is a sequence of code points. *)
Abbreviation pystr := (list N).

(** A literal of the script, character by character. *)
Definition py (s : string) : pystr := map N_of_ascii (list_ascii_of_string s).

Arguments py : simpl never.

(** [str.isspace] on one character, which is also the class [\s] of a [str]
    pattern: the code points CPython lists as whitespace. *)
Definition isspace (c : N) : bool :=
  ((0x09 <=? c) && (c <=? 0x0D)) || ((0x1C <=? c) && (c <=? 0x1F))
  || (c =? 0x20) || (c =? 0x85) || (c =? 0xA0) || (c =? 0x1680)
  || ((0x2000 <=? c) && (c <=? 0x200A)) || (c =? 0x2028) || (c =? 0x2029)
  || (c =? 0x202F) || (c =? 0x205F) || (c =? 0x3000).

Fixpoint lstrip (s : pystr) : pystr :=
  match s with
  | c :: s' => if isspace c then lstrip s' else s
  | [] => []
  end.

Definition rstrip (s : pystr) : pystr := rev (lstrip (rev s)).

(** [s.strip()] *)
Definition strip (s : pystr) : pystr := rstrip (lstrip s).

(** [s.startswith(p)] *)
Fixpoint startswith (p s : pystr) : bool :=
  match p, s with
  | [], _ => true
  | a :: p', b :: s' => (a =? b) && startswith p' s'
  | _ :: _, [] => false
  end.

(** ** The fragment of [re] the script uses *)

Module Re.

Inductive regex :=
| Chr (c : N)                  (* one literal character *)
| Cls (p : N -> bool)          (* a character class, [\s] or [[...]] *)
| Cat (r1 r2 : regex)          (* r1 r2 *)
| Rep (n : nat) (r : regex)    (* r{n} *)
| Star (p : N -> bool)         (* class*, greedy *)
| Group (r : regex).           (* ( r ), a capturing group *)

(** Greedy [class*]: take as many characters of the class as there are,
    then give characters back one at a time until the rest of the pattern,
    [k], matches. *)
Fixpoint star (p : N -> bool) (k : pystr -> option (list pystr))
    (s : pystr) : option (list pystr) :=
  match s with
  | a :: s' =>
      if p a
      then match star p k s' with
           | Some m => Some m
           | None => k s
           end
      else k s
  | [] => k s
  end.

(** Backtracking matcher in continuation-passing style.  [s] is what is
    left of the subject, [gs] the groups captured so far, in the order in
    which they close; [k] matches the rest of the pattern. *)
Fixpoint run (r : regex) (s : pystr) (gs : list pystr)
    (k : pystr -> list pystr -> option (list pystr)) : option (list pystr) :=
  match r with
  | Chr c =>
      match s with
      | a :: s' => if a =? c then k s' gs else None
      | [] => None
      end
  | Cls p =>
      match s with
      | a :: s' => if p a then k s' gs else None
      | [] => None
      end
  | Cat r1 r2 => run r1 s gs (fun s' gs' => run r2 s' gs' k)
  | Rep n r1 =>
      (fix rep (n : nat) (s : pystr) (gs : list pystr) :=
         match n with
         | O => k s gs
         | S n' => run r1 s gs (rep n')
         end) n s gs
  | Star p => star p (fun s' => k s' gs) s
  | Group r1 =>
      run r1 s gs
        (fun s' gs' => k s' (gs' ++ [take (length s - length s')%nat s]))
  end.

(** [re.match(pattern, s)]: anchored at the start of [s], free at its end.
    The result is the list of captured groups. *)
Definition re_match (pattern : regex) (s : pystr) : option (list pystr) :=
  run pattern s [] (fun _ gs => Some gs).

(** [m.group(i)] for [i >= 1] *)
Definition group (m : list pystr) (i : nat) : pystr :=
  default [] (m !! (i - 1)%nat).

End Re.

(** The class [[A-Z0-9]]. *)
Definition upper_or_digit (c : N) : bool :=
  ((0x41 <=? c) && (c <=? 0x5A)) || ((0x30 <=? c) && (c <=? 0x39)).

(** The pattern of line 28, [([A-Z0-9]{3})\s*=]. *)
Definition tag_pattern : Re.regex :=
  Re.Cat (Re.Group (Re.Rep 3 (Re.Cls upper_or_digit)))
         (Re.Cat (Re.Star isspace) (Re.Chr 0x3D)).

(** [s.endswith(p)] *)
Definition endswith (p s : pystr) : bool := startswith (rev p) (rev s).

(** Truth value of a sequence: empty is false. *)
Definition truthy {A} (l : list A) : bool :=
  match l with [] => false | _ :: _ => true end.

(** A format string, already split into literal text and replacement
    fields: ["{tag}_fascist.tga"] is [[Field "tag"; Lit "_fascist.tga"]]. *)
Inductive piece :=
| Lit (s : pystr)
| Field (name : pystr).

(** [template.format(name=value)], for the fields called [name]. *)
Definition format (template : list piece) (name value : pystr) : pystr :=
  concat (map (fun p => match p with
                        | Lit s => s
                        | Field n => if decide (n = name) then value else []
                        end) template).

(** ** Paths ([posixpath]) *)

Definition sep : pystr := py "/".

(** [os.path.join(a, b)] *)
Definition os_path_join (a b : pystr) : pystr :=
  if startswith sep b then b
  else if negb (truthy a) || endswith sep a then a ++ b
  else a ++ sep ++ b.

Fixpoint until_sep (s : pystr) : pystr :=
  match s with
  | c :: s' => if c =? 0x2F then [] else c :: until_sep s'
  | [] => []
  end.

(** [os.path.basename(p)]: what follows the last separator. *)
Definition os_path_basename (p : pystr) : pystr := rev (until_sep (rev p)).

(** ** Exceptions *)

Inductive exn :=
| FileNotFoundError (filename : pystr)
| IsADirectoryError (filename : pystr)
| PermissionError (filename : pystr)
| SameFileError (src dst : pystr)
| OtherError (message : pystr).   (* UnicodeDecodeError, other OSError, ... *)

(** [repr] of a path that needs no escaping. *)
Definition repr (s : pystr) : pystr := py "'" ++ s ++ py "'".

(** [str(e)], what [{e}] puts into an f-string. *)
Definition str_exn (e : exn) : pystr :=
  match e with
  | FileNotFoundError f => py "[Errno 2] No such file or directory: " ++ repr f
  | IsADirectoryError f => py "[Errno 21] Is a directory: " ++ repr f
  | PermissionError f => py "[Errno 13] Permission denied: " ++ repr f
  | SameFileError a b => repr a ++ py " and " ++ repr b ++ py " are the same file"
  | OtherError m => m
  end.

(** ** The file system and the console *)

(** What iterating over a file opened in text mode yields: its lines, one
    after the other, until the end of the file or until a read or a decoding
    step raises. *)
Inductive text_stream :=
| Eof
| Line (l : pystr) (rest : text_stream)
| Raise (e : exn).

(** A regular file is kept as what a UTF-8 text read of it yields; copies
    duplicate it as it is. *)
Inductive node :=
| Reg (data : text_stream)
| Dir.

(** Paths are plain keys: no links, no [.] or [..] resolution.  [noread] and
    [nowrite] stand for everything that makes opening a path fail for reading
    or for writing (permissions, a parent that is absent, a full disk). *)
Record filesystem := Fs {
  nodes : gmap pystr node;
  noread : gset pystr;
  nowrite : gset pystr
}.

(** The library calls the script makes, in the order it makes them. *)
Inductive call :=
| CallOpen (path : pystr)
| CallIsFile (path : pystr)
| CallCopy2 (src dst : pystr) (ok : bool).

Record world := World {
  fs : filesystem;
  stdout : list pystr;      (* one entry per [print] *)
  calls : list call
}.

Definition isfile (f : filesystem) (path : pystr) : bool :=
  match nodes f !! path with Some (Reg _) => true | _ => false end.

Definition isdir (f : filesystem) (path : pystr) : bool :=
  match nodes f !! path with Some Dir => true | _ => false end.

(** [open(path, 'r', encoding='utf-8')] followed by iteration. *)
Definition open_text (f : filesystem) (path : pystr) : text_stream :=
  match nodes f !! path with
  | None => Raise (FileNotFoundError path)
  | Some Dir => Raise (IsADirectoryError path)
  | Some (Reg data) =>
      if decide (path ∈ noread f) then Raise (PermissionError path) else data
  end.

(** [shutil.copyfile(src, dst)]: same-file check, open [src] for reading,
    open [dst] for writing, copy.  A call that raises is taken to leave the
    file system as it was. *)
Definition copyfile (f : filesystem) (src dst : pystr) : exn + filesystem :=
  if bool_decide (src = dst) && (isfile f src || isdir f src)
  then inl (SameFileError src dst)
  else match nodes f !! src with
       | None => inl (FileNotFoundError src)
       | Some Dir => inl (IsADirectoryError src)
       | Some (Reg data) =>
           if decide (src ∈ noread f) then inl (PermissionError src)
           else if isdir f dst then inl (IsADirectoryError dst)
           else if decide (dst ∈ nowrite f) then inl (PermissionError dst)
           else inr (Fs (<[dst := Reg data]> (nodes f)) (noread f) (nowrite f))
       end.

(** [shutil.copy2(src, dst)]: a destination that is a directory receives the
    copy under the base name of [src].  The metadata [copystat] carries over
    is not part of the model. *)
Definition copy2 (f : filesystem) (src dst : pystr) : exn + filesystem :=
  let dst := if isdir f dst
             then os_path_join dst (os_path_basename src) else dst in
  copyfile f src dst.

(** ** The state monad of the script *)

Definition M (A : Type) : Type := world -> A * world.

#[global] Instance M_ret : MRet M := fun _ x w => (x, w).
#[global] Instance M_bind : MBind M :=
  fun _ _ k c w => let '(x, w') := c w in k x w'.

Definition print (s : pystr) : M unit :=
  fun w => (tt, World (fs w) (stdout w ++ [s]) (calls w)).

Definition os_path_isfile (path : pystr) : M bool :=
  fun w => (isfile (fs w) path,
            World (fs w) (stdout w) (calls w ++ [CallIsFile path])).

Definition shutil_copy2 (src dst : pystr) : M (option exn) :=
  fun w => match copy2 (fs w) src dst with
           | inl e => (Some e, World (fs w) (stdout w)
                                 (calls w ++ [CallCopy2 src dst false]))
           | inr f' => (None, World f' (stdout w)
                                (calls w ++ [CallCopy2 src dst true]))
           end.

Definition open_file (path : pystr) : M text_stream :=
  fun w => (open_text (fs w) path,
            World (fs w) (stdout w) (calls w ++ [CallOpen path])).

(** [for x in xs: body], with the local variables the body assigns passed
    from one round to the next. *)
Fixpoint for_each {A S : Type} (xs : list A) (body : A -> S -> M S) (s : S)
    : M S :=
  match xs with
  | [] => mret s
  | x :: xs' => s' ← body x s; for_each xs' body s'
  end.

(** ** The script *)

Definition nl : pystr := [0x0A].

(** Lines 21-31: the loop over the lines of the open file.  [inl e] is the
    exception that leaves the loop, [inr tags] the list at its end. *)
Fixpoint read_lines (file : text_stream) (tags : list pystr)
    : exn + list pystr :=
  match file with
  | Eof => inr tags
  | Raise e => inl e
  | Line line rest =>
      let line := strip line in
      if negb (truthy line) || startswith (py "#") line
      then read_lines rest tags
      else match Re.re_match tag_pattern line with
           | Some tag_match =>
               let tag := Re.group tag_match 1 in
               read_lines rest (tags ++ [tag])
           | None => read_lines rest tags
           end
  end.

(** Lines 6-36. *)
Definition read_tags_from_file (file_path : pystr) : M (list pystr) :=
  file ← open_file file_path;
  match read_lines file [] with
  | inr tags => mret tags
  | inl e =>
      _ ← print (py "Error reading tags file: " ++ str_exn e);
      mret []
  end.

(** Lines 53-59. *)
Definition required_flags : list (list piece) :=
  [ [Field (py "tag"); Lit (py ".tga")];
    [Field (py "tag"); Lit (py "_fascist.tga")];
    [Field (py "tag"); Lit (py "_communist.tga")];
    [Field (py "tag"); Lit (py "_monarchy.tga")];
    [Field (py "tag"); Lit (py "_republic.tga")] ].

(** Lines 39-80. *)
Definition validate_flags (folder_path : pystr) (tags : list pystr)
    (auto_fix : bool) : M (list pystr) :=
  missing_flags ←
    for_each tags (fun tag missing_flags =>
      for_each required_flags (fun flag_template missing_flags =>
        let flag_file := format flag_template (py "tag") tag in
        let flag_path := os_path_join folder_path flag_file in
        present ← os_path_isfile flag_path;
        if negb present
        then mret (missing_flags ++ [flag_file])
        else mret missing_flags) missing_flags) [];
  _ ← (if truthy missing_flags
       then
         _ ← print (py "The following flag files are missing:");
         _ ← for_each missing_flags (fun flag _ => print (py "- " ++ flag)) tt;
         print (nl ++ py "Please review the missing files and add them to the folder.")
       else print (py "All required flag files are present!"));
  mret missing_flags.

(** Lines 83-119.  The two locals of the loop are [success] and
    [created_files]. *)
Definition create_missing_flags (folder_path : pystr)
    (missing_flags : list pystr) : M bool :=
  let template_file := os_path_join folder_path (py "GHO.tga") in
  present ← os_path_isfile template_file;
  if negb present
  then
    _ ← print (py "Error: Template file '" ++ template_file
               ++ py "' not found.");
    mret false
  else
    '(success, created_files) ←
      for_each missing_flags (fun flag_file '(success, created_files) =>
        let target_path := os_path_join folder_path flag_file in
        raised ← shutil_copy2 template_file target_path;
        match raised with
        | None => mret (success, created_files ++ [flag_file])
        | Some e =>
            _ ← print (py "Error creating " ++ flag_file ++ py ": "
                       ++ str_exn e);
            mret (false, created_files)
        end) (true, @nil pystr);
    _ ← (if truthy created_files
         then
           _ ← print (nl ++ py "Created the following flag files:");
           for_each created_files (fun flag _ => print (py "- " ++ flag)) tt
         else mret tt);
    mret success.

(** ** The interactive driver (lines 123-154) *)

(** The terminal: the lines still to be typed, and the prompts [input] has
    shown, in order. *)
Record console := Console {
  stdin : list pystr;
  prompts : list pystr
}.

(** The driver runs on the terminal and the world.  [None] is the
    [EOFError] of an [input] that finds no line: nothing catches it and the
    script ends there. *)
Definition Script (A : Type) : Type :=
  console -> world -> option A * console * world.

#[global] Instance Script_ret : MRet Script := fun _ x c w => (Some x, c, w).
#[global] Instance Script_bind : MBind Script :=
  fun _ _ k m c w =>
    match m c w with
    | (Some x, c', w') => k x c' w'
    | (None, c', w') => (None, c', w')
    end.

(** A call of one of the three functions, or a [print]. *)
Definition lift {A} (m : M A) : Script A :=
  fun c w => let '(x, w') := m w in (Some x, c, w').

(** [input(prompt)]: show the prompt, take the next line without its line
    end. *)
Definition input (prompt : pystr) : Script pystr :=
  fun c w =>
    match stdin c with
    | [] => (None, Console [] (prompts c ++ [prompt]), w)
    | l :: rest => (Some l, Console rest (prompts c ++ [prompt]), w)
    end.

(** [str(n)] for a length. *)
Definition str_int (n : nat) : pystr := py (pretty (N.of_nat n)).

(** [sep.join(xs)] *)
Fixpoint str_join (sep : pystr) (xs : list pystr) : pystr :=
  match xs with
  | [] => []
  | [x] => x
  | x :: xs' => x ++ sep ++ str_join sep xs'
  end.

(** Lines 123-154.  [lower] is [str.lower], whose case tables are not part
    of the script. *)
Definition main (lower : pystr -> pystr) : Script unit :=
  typed ← input (py "Enter the path to the folder containing the flag files: ");
  let folder_path := strip typed in
  typed ← input (py "Enter the path to the countries.txt file: ");
  let countries_file := strip typed in
  tags ← lift (read_tags_from_file countries_file);
  if negb (truthy tags)
  then lift (print (py "No valid country tags found in the file. Exiting."))
  else
    _ ← lift (print (py "Found " ++ str_int (length tags)
                     ++ py " country tags: " ++ str_join (py ", ") tags));
    _ ← lift (print (nl ++ py "=== Initial Flag Check ==="));
    missing_flags ← lift (validate_flags folder_path tags false);
    if truthy missing_flags
    then
      typed ← input (nl ++ py "Do you want to create the missing flags? (y/n): ");
      let create_missing := lower (strip typed) in
      if decide (create_missing = py "y")
      then
        _ ← lift (print (nl ++ py "=== Creating Missing Flags ==="));
        created ← lift (create_missing_flags folder_path missing_flags);
        if (created : bool)
        then
          _ ← lift (print (nl ++ py "=== Verification Flag Check ==="));
          _ ← lift (validate_flags folder_path tags false);
          mret tt
        else
          lift (print (nl ++ py "Some files could not be created. Please check the errors above."))
      else mret tt
    else lift (print (nl ++ py "No need to create any missing files.")).

(** [str.lower] on the letters A-Z, for running the driver on examples. *)
Definition ascii_lower (s : pystr) : pystr :=
  map (fun c => if (0x41 <=? c) && (c <=? 0x5A) then c + 0x20 else c) s.

(** * Vocabulary of the properties *)

(** ** FlagValidator *)

(** The five file names required for one identifier, in the order of
    [required_flags]. *)
Definition flag_files (tag : pystr) : list pystr :=
  [ tag ++ py ".tga"; tag ++ py "_fascist.tga"; tag ++ py "_communist.tga";
    tag ++ py "_monarchy.tga"; tag ++ py "_republic.tga" ].

(** The candidate names for a list of identifiers: identifier-major,
    suffix-minor. *)
Definition candidates (tags : list pystr) : list pystr :=
  concat (map flag_files tags).

(** [name] is not a regular file of the folder. *)
Definition absent (f : filesystem) (folder_path name : pystr) : Prop :=
  isfile f (os_path_join folder_path name) = false.

#[global] Instance absent_dec f folder_path name :
  Decision (absent f folder_path name).
Proof. unfold absent. apply _. Defined.

(** What [validate_flags] prints for a given missing-list. *)
Definition report (missing_flags : list pystr) : list pystr :=
  if truthy missing_flags
  then py "The following flag files are missing:"
       :: map (fun flag => py "- " ++ flag) missing_flags
       ++ [nl ++ py "Please review the missing files and add them to the folder."]
  else [py "All required flag files are present!"].

(** ** FlagProvisioner *)

(** The copies [create_missing_flags] attempts, one name after the other,
    each on the file system the attempts before it left: the outcome of every
    attempt ([None] when [shutil.copy2] returned, [Some e] when it raised
    [e]) and the file system at the end. *)
Fixpoint copy_all (f : filesystem) (template folder : pystr)
    (names : list pystr) : list (pystr * option exn) * filesystem :=
  match names with
  | [] => ([], f)
  | n :: ns =>
      match copy2 f template (os_path_join folder n) with
      | inl e =>
          let '(attempts, f') := copy_all f template folder ns in
          ((n, Some e) :: attempts, f')
      | inr f1 =>
          let '(attempts, f') := copy_all f1 template folder ns in
          ((n, None) :: attempts, f')
      end
  end.

Definition succeeded (o : option exn) : bool :=
  match o with None => true | Some _ => false end.

(** The names whose copy returned. *)
Definition created_of (attempts : list (pystr * option exn)) : list pystr :=
  map fst (List.filter (fun a => succeeded a.2) attempts).

(** The lines printed for the copies that raised. *)
Definition errors_of (attempts : list (pystr * option exn)) : list pystr :=
  omap (fun a => match a.2 with
                 | Some e => Some (py "Error creating " ++ a.1 ++ py ": "
                                   ++ str_exn e)
                 | None => None
                 end) attempts.

Definition copy_calls (template folder : pystr)
    (attempts : list (pystr * option exn)) : list call :=
  map (fun a => CallCopy2 template (os_path_join folder a.1) (succeeded a.2))
      attempts.

(** What is printed after the loop. *)
Definition created_report (created_files : list pystr) : list pystr :=
  if truthy created_files
  then (nl ++ py "Created the following flag files:")
       :: map (fun flag => py "- " ++ flag) created_files
  else [].

(** ** TagReader *)

(** The exception, if any, at which iterating over a file stops. *)
Fixpoint stream_error (file : text_stream) : option exn :=
  match file with
  | Eof => None
  | Line _ rest => stream_error rest
  | Raise e => Some e
  end.



(** Three characters of [[A-Z0-9]]. *)
Definition is_tag (tag : pystr) : Prop :=
  length tag = 3%nat /\ forallb upper_or_digit tag = true.

(** What [os.path.join] puts between a folder and a relative name. *)
Definition glue (folder : pystr) : pystr :=
  if negb (truthy folder) || endswith sep folder then [] else sep.


(** ** Sample worlds *)

Definition gfx : pystr := py "gfx".

Definition image : node := Reg Eof.

Definition fresh (entries : list (pystr * node)) (readonly : gset pystr)
    : world :=
  World (Fs (list_to_map entries) ∅ readonly) [] [].

(** The template and the five files of [USA]. *)
Definition world_complete : world :=
  fresh [ (py "gfx/GHO.tga", image); (py "gfx/USA.tga", image);
          (py "gfx/USA_fascist.tga", image);
          (py "gfx/USA_communist.tga", image);
          (py "gfx/USA_monarchy.tga", image);
          (py "gfx/USA_republic.tga", image) ] ∅.

(** The same without [USA_monarchy.tga]. *)
Definition world_one_missing : world :=
  fresh [ (py "gfx/GHO.tga", image); (py "gfx/USA.tga", image);
          (py "gfx/USA_fascist.tga", image);
          (py "gfx/USA_communist.tga", image);
          (py "gfx/USA_republic.tga", image) ] ∅.

(** No template. *)
Definition world_no_template : world :=
  fresh [ (py "gfx/USA.tga", image) ] ∅.

(** [USA.tga] is a directory of the folder. *)
Definition world_directory : world :=
  fresh [ (py "gfx/GHO.tga", image); (py "gfx/USA.tga", Dir);
          (py "gfx/USA_fascist.tga", image);
          (py "gfx/USA_communist.tga", image);
          (py "gfx/USA_monarchy.tga", image);
          (py "gfx/USA_republic.tga", image) ] ∅.

(** Only the template, and [USA.tga] cannot be written. *)
Definition world_readonly : world :=
  fresh [ (py "gfx/GHO.tga", image) ] {[ py "gfx/USA.tga" ]}.

(** A tag file with a comment, a blank line, a repeated tag and a
    two-character tag. *)
Definition world_countries : world :=
  fresh [ (py "countries.txt",
           Reg (Line (py "# Ghana first") (Line nl
               (Line (py "GHO = Ghana") (Line (py "USA = United States")
               (Line (py "AB = x") (Line (py "GHO = again") Eof))))))) ] ∅.

(** A tag file whose only line declares a two-character tag. *)
Definition world_two_letters : world :=
  fresh [ (py "countries.txt", Reg (Line (py "AB = x") Eof)) ] ∅.

(** A tag file declaring [USA], the template and one of the five files. *)
Definition world_driver : world :=
  fresh [ (py "countries.txt", Reg (Line (py "USA = United States") Eof));
          (py "gfx/GHO.tga", image); (py "gfx/USA.tga", image) ] ∅.

(** The same with all five files. *)
Definition world_driver_complete : world :=
  fresh [ (py "countries.txt", Reg (Line (py "USA = United States") Eof));
          (py "gfx/GHO.tga", image); (py "gfx/USA.tga", image);
          (py "gfx/USA_fascist.tga", image);
          (py "gfx/USA_communist.tga", image);
          (py "gfx/USA_monarchy.tga", image);
          (py "gfx/USA_republic.tga", image) ] ∅.

(** The same with one file and no template. *)
Definition world_driver_no_template : world :=
  fresh [ (py "countries.txt", Reg (Line (py "USA = United States") Eof));
          (py "gfx/USA.tga", image) ] ∅.

(** * Properties *)

(** ** The pattern on two lines *)

Example tag_pattern_usa :
  Re.re_match tag_pattern (py "USA = United States") = Some [py "USA"].
Proof. reflexivity. Qed.

Example tag_pattern_two :
  Re.re_match tag_pattern (py "AB = x") = None.
Proof. reflexivity. Qed.

(** ** Running the monad *)

Lemma run_bind {A B} (c : M A) (k : A -> M B) (w : world) :
  (c ≫= k) w = k (c w).1 (c w).2.
Proof. unfold mbind, M_bind. by destruct (c w). Qed.

Lemma run_ret {A} (x : A) (w : world) : (mret x : M A) w = (x, w).
Proof. reflexivity. Qed.

Lemma for_each_cons {A S} (x : A) (xs : list A) (body : A -> S -> M S)
    (s : S) (w : world) :
  for_each (x :: xs) body s w
  = for_each xs body (body x s w).1 (body x s w).2.
Proof. simpl. by rewrite run_bind. Qed.

(** The loop that prints one line per name. *)
Lemma print_each (names : list pystr) (w : world) :
  for_each names (fun flag _ => print (py "- " ++ flag)) tt w
  = (tt, World (fs w) (stdout w ++ map (fun flag => py "- " ++ flag) names)
               (calls w)).
Proof.
  revert w. induction names as [|n names IH]; intros w.
  - simpl. rewrite app_nil_r. by destruct w.
  - rewrite for_each_cons, IH. simpl. by rewrite <- app_assoc.
Qed.

(** ** FlagValidator *)

Lemma format_required (tag : pystr) :
  map (fun flag_template => format flag_template (py "tag") tag) required_flags
  = flag_files tag.
Proof.
  unfold required_flags, flag_files, format. cbn [map concat].
  rewrite decide_True by done. by rewrite !app_nil_r.
Qed.

(** One round of the inner loop. *)
Lemma check_one (flag_path flag_file : pystr) (missing_flags : list pystr)
    (w : world) :
  (present ← os_path_isfile flag_path;
   if negb present
   then mret (missing_flags ++ [flag_file])
   else mret missing_flags) w
  = (missing_flags ++ (if isfile (fs w) flag_path then [] else [flag_file]),
     World (fs w) (stdout w) (calls w ++ [CallIsFile flag_path])).
Proof.
  rewrite run_bind. unfold os_path_isfile. cbn [fst snd].
  destruct (isfile (fs w) flag_path); cbn [negb]; rewrite run_ret;
    by rewrite ?app_nil_r.
Qed.

(** The inner loop, for any list of templates. *)
Lemma check_templates (folder_path tag : pystr) (templates : list (list piece))
    (acc : list pystr) (w : world) :
  let names := map (fun t => format t (py "tag") tag) templates in
  for_each templates (fun flag_template missing_flags =>
      let flag_file := format flag_template (py "tag") tag in
      let flag_path := os_path_join folder_path flag_file in
      present ← os_path_isfile flag_path;
      if negb present
      then mret (missing_flags ++ [flag_file])
      else mret missing_flags) acc w
  = (acc ++ filter (absent (fs w) folder_path) names,
     World (fs w) (stdout w)
           (calls w ++ map (fun n => CallIsFile (os_path_join folder_path n))
                           names)).
Proof.
  revert acc w. induction templates as [|t ts IH]; intros acc w.
  - simpl. rewrite !app_nil_r. by destruct w.
  - rewrite for_each_cons. cbv zeta in IH |- *. rewrite check_one.
    cbn [fst snd]. rewrite IH. cbn [fs stdout calls map].
    rewrite filter_cons. case_decide as Hd; unfold absent in Hd.
    + rewrite Hd. by rewrite <- !app_assoc.
    + apply not_false_is_true in Hd. rewrite Hd.
      by rewrite app_nil_r, <- app_assoc.
Qed.

(** The nested loop of lines 64-69. *)
Lemma check_tags (folder_path : pystr) (tags : list pystr) (acc : list pystr)
    (w : world) :
  for_each tags (fun tag missing_flags =>
      for_each required_flags (fun flag_template missing_flags =>
        let flag_file := format flag_template (py "tag") tag in
        let flag_path := os_path_join folder_path flag_file in
        present ← os_path_isfile flag_path;
        if negb present
        then mret (missing_flags ++ [flag_file])
        else mret missing_flags) missing_flags) acc w
  = (acc ++ filter (absent (fs w) folder_path) (candidates tags),
     World (fs w) (stdout w)
           (calls w ++ map (fun n => CallIsFile (os_path_join folder_path n))
                           (candidates tags))).
Proof.
  revert acc w. induction tags as [|tag tags IH]; intros acc w.
  - simpl. rewrite !app_nil_r. by destruct w.
  - rewrite for_each_cons, check_templates, format_required.
    cbn [fst snd]. rewrite IH. cbn [fs stdout calls].
    unfold candidates. cbn [map concat].
    rewrite filter_app, map_app, !app_assoc. reflexivity.
Qed.

(** The whole of [validate_flags]: its result and the world it leaves. *)
Lemma validate_flags_run (folder_path : pystr) (tags : list pystr)
    (auto_fix : bool) (w : world) :
  let missing := filter (absent (fs w) folder_path) (candidates tags) in
  validate_flags folder_path tags auto_fix w
  = (missing,
     World (fs w) (stdout w ++ report missing)
           (calls w ++ map (fun n => CallIsFile (os_path_join folder_path n))
                           (candidates tags))).
Proof.
  intros missing. unfold validate_flags.
  rewrite run_bind, check_tags. cbn [fst snd app]. fold missing.
  rewrite run_bind. unfold report. destruct (truthy missing).
  - rewrite !run_bind. unfold print at 1 3. cbn [fst snd fs stdout calls].
    rewrite print_each. cbn [fst snd fs stdout calls].
    rewrite run_ret. f_equal. f_equal. by rewrite <- !app_assoc.
  - by rewrite run_ret.
Qed.

Lemma candidates_length (tags : list pystr) :
  length (candidates tags) = (5 * length tags)%nat.
Proof.
  unfold candidates. induction tags as [|t ts IH]; [done|].
  cbn [map concat]. rewrite length_app, IH. cbn [flag_files length]. lia.
Qed.

Lemma filter_absent_none (f : filesystem) (folder_path : pystr)
    (names : list pystr) :
  Forall (fun n => isfile f (os_path_join folder_path n) = true) names ->
  filter (absent f folder_path) names = [].
Proof.
  induction 1 as [|n ns Hn _ IH]; [done|].
  rewrite filter_cons, decide_False; [done|].
  unfold absent. by rewrite Hn.
Qed.

(** C1: [validate_flags] returns the candidate names (five per identifier)
    that are not regular files of the folder, and only those.  When all
    5*N required files are present the list is empty and the summary says so;
    when exactly one of the 5*N required files is absent the list is that one
    name. *)
Theorem validate_flags_returns_absent (folder_path : pystr)
    (tags : list pystr) (auto_fix : bool) (w : world) :
  let r := validate_flags folder_path tags auto_fix w in
  let present := fun n => isfile (fs w) (os_path_join folder_path n) = true in
  r.1 = filter (absent (fs w) folder_path) (candidates tags)
  /\ length (candidates tags) = (5 * length tags)%nat
  /\ (Forall present (candidates tags) ->
      r.1 = [] /\
      stdout r.2 = stdout w ++ [py "All required flag files are present!"])
  /\ (forall before name after,
        candidates tags = before ++ name :: after ->
        absent (fs w) folder_path name ->
        Forall present before -> Forall present after ->
        r.1 = [name]).
Proof.
  intros r present. subst r. rewrite validate_flags_run. cbn [fst snd stdout].
  split; [done|]. split; [apply candidates_length|]. split.
  - intros Hall. rewrite (filter_absent_none _ _ _ Hall). by split.
  - intros before name after -> Hname Hb Ha.
    rewrite filter_app, filter_cons, decide_True by done.
    by rewrite (filter_absent_none _ _ _ Hb), (filter_absent_none _ _ _ Ha).
Qed.

(** C3: the existence checks are the 5*N candidate names, identifier by
    identifier and, for each identifier, in the order base, fascist,
    communist, monarchy, republic; the missing-list keeps that grouping. *)
Theorem validate_flags_checks_in_order (folder_path : pystr)
    (tags : list pystr) (auto_fix : bool) (w : world) :
  let r := validate_flags folder_path tags auto_fix w in
  calls r.2
  = calls w ++ map (fun n => CallIsFile (os_path_join folder_path n))
                   (candidates tags)
  /\ candidates tags
     = concat (map (fun tag =>
                      [ tag ++ py ".tga"; tag ++ py "_fascist.tga";
                        tag ++ py "_communist.tga"; tag ++ py "_monarchy.tga";
                        tag ++ py "_republic.tga" ]) tags)
  /\ length (candidates tags) = (5 * length tags)%nat
  /\ r.1 = concat (map (fun tag =>
                          filter (absent (fs w) folder_path) (flag_files tag))
                       tags).
Proof.
  intros r. subst r. rewrite validate_flags_run. cbn [fst snd calls].
  split; [done|]. split; [done|]. split; [apply candidates_length|].
  unfold candidates. induction tags as [|t ts IH]; [done|].
  cbn [map concat]. by rewrite filter_app, IH.
Qed.

(** C9: [validate_flags] leaves the file system as it found it; what it
    adds to the world is its printed summary (and the record of its
    existence checks). *)
Theorem validate_flags_no_mutation (folder_path : pystr) (tags : list pystr)
    (auto_fix : bool) (w : world) :
  let r := validate_flags folder_path tags auto_fix w in
  fs r.2 = fs w
  /\ stdout r.2 = stdout w ++ report r.1
  /\ exists checks,
       calls r.2 = calls w ++ checks
       /\ Forall (fun c => exists p, c = CallIsFile p) checks.
Proof.
  intros r. subst r. rewrite validate_flags_run. cbn [fst snd fs stdout calls].
  split; [done|]. split; [done|]. eexists. split; [done|].
  apply Forall_map, Forall_true. intros n. by eexists.
Qed.

(** C10: the [auto_fix] argument is never read: with [False] and with
    [True] the result and the world left behind are the same. *)
Theorem validate_flags_ignores_auto_fix (folder_path : pystr)
    (tags : list pystr) (w : world) :
  validate_flags folder_path tags false w
  = validate_flags folder_path tags true w.
Proof. reflexivity. Qed.

(** ** FlagProvisioner *)

Lemma copy_all_names (f : filesystem) (template folder : pystr)
    (names : list pystr) :
  map fst (copy_all f template folder names).1 = names.
Proof.
  revert f. induction names as [|n ns IH]; intros f; [done|].
  cbn [copy_all]. destruct (copy2 f template (os_path_join folder n)) as [e|f1].
  - specialize (IH f). destruct (copy_all f template folder ns).
    cbn [fst map] in *. by rewrite IH.
  - specialize (IH f1). destruct (copy_all f1 template folder ns).
    cbn [fst map] in *. by rewrite IH.
Qed.

(** The whole of [create_missing_flags] when the template is there. *)
Lemma create_missing_flags_run (folder_path : pystr)
    (missing_flags : list pystr) (w : world) :
  let template_file := os_path_join folder_path (py "GHO.tga") in
  let attempts := (copy_all (fs w) template_file folder_path missing_flags).1 in
  let f' := (copy_all (fs w) template_file folder_path missing_flags).2 in
  isfile (fs w) template_file = true ->
  create_missing_flags folder_path missing_flags w
  = (forallb (fun a => succeeded a.2) attempts,
     World f'
       (stdout w ++ errors_of attempts ++ created_report (created_of attempts))
       (calls w ++ CallIsFile template_file
                :: copy_calls template_file folder_path attempts)).
Proof.
  intros template_file attempts f' Htemplate. subst attempts f'.
  unfold create_missing_flags. fold template_file.
  rewrite run_bind. unfold os_path_isfile at 1 2. cbn [fst snd].
  rewrite Htemplate. cbn [negb]. rewrite run_bind.
  match goal with |- context [for_each _ ?b _ _] => set (body := b) end.
  assert (Hloop : forall names success created w0,
    for_each names body (success, created) w0
    = let r := copy_all (fs w0) template_file folder_path names in
      ((success && forallb (fun a => succeeded a.2) r.1,
        created ++ created_of r.1),
       World r.2 (stdout w0 ++ errors_of r.1)
             (calls w0 ++ copy_calls template_file folder_path r.1))).
  { induction names as [|n ns IH]; intros success created w0.
    - cbn. rewrite andb_true_r, !app_nil_r. by destruct w0.
    - rewrite for_each_cons. unfold body at 2 3. rewrite !run_bind.
      unfold shutil_copy2 at 1 2 3 4. cbn [copy_all].
      destruct (copy2 (fs w0) template_file (os_path_join folder_path n))
        as [e|f1]; cbn [fst snd].
      + rewrite run_bind. unfold print at 1 2. cbn [fst snd fs stdout calls].
        rewrite run_ret. cbn [fst snd]. rewrite IH. cbn [fs stdout calls].
        destruct (copy_all (fs w0) template_file folder_path ns) as [as' ff].
        cbn [fst snd forallb succeeded]. rewrite andb_false_r.
        unfold created_of, errors_of, copy_calls.
        cbn [List.filter omap map fst snd succeeded].
        by rewrite <- !app_assoc.
      + rewrite run_ret. cbn [fst snd]. rewrite IH. cbn [fs stdout calls].
        destruct (copy_all f1 template_file folder_path ns) as [as' ff].
        cbn [fst snd forallb succeeded].
        unfold created_of, errors_of, copy_calls.
        cbn [List.filter omap map fst snd succeeded].
        by rewrite <- !app_assoc. }
  rewrite Hloop. cbn [fst snd fs stdout calls andb].
  destruct (copy_all (fs w) template_file folder_path missing_flags)
    as [attempts f']. cbn [fst snd]. rewrite app_nil_l.
  rewrite run_bind. unfold created_report.
  destruct (truthy (created_of attempts)).
  - rewrite run_bind. unfold print at 1 2. cbn [fst snd fs stdout calls].
    rewrite print_each. cbn [fst snd fs stdout calls]. rewrite run_ret.
    f_equal. f_equal; by rewrite <- ?app_assoc.
  - rewrite !run_ret. cbn [fst snd]. f_equal. f_equal.
    + by rewrite !app_nil_r.
    + by rewrite <- app_assoc.
Qed.

(** The whole of [create_missing_flags] when the template is not there. *)
Lemma create_missing_flags_no_template (folder_path : pystr)
    (missing_flags : list pystr) (w : world) :
  let template_file := os_path_join folder_path (py "GHO.tga") in
  isfile (fs w) template_file = false ->
  create_missing_flags folder_path missing_flags w
  = (false,
     World (fs w)
       (stdout w ++ [py "Error: Template file '" ++ template_file
                     ++ py "' not found."])
       (calls w ++ [CallIsFile template_file])).
Proof.
  intros template_file Hno. unfold create_missing_flags. fold template_file.
  rewrite run_bind. unfold os_path_isfile at 1 2. cbn [fst snd].
  rewrite Hno. cbn [negb]. by rewrite run_bind.
Qed.

(** C4: without the template [GHO.tga] the function prints its diagnostic
    and returns [False]; the file system is the one it was given and no copy
    was attempted, whatever the missing-list. *)
Theorem create_missing_flags_without_template (folder_path : pystr)
    (missing_flags : list pystr) (w : world) :
  let template_file := os_path_join folder_path (py "GHO.tga") in
  isfile (fs w) template_file = false ->
  create_missing_flags folder_path missing_flags w
  = (false,
     World (fs w)
       (stdout w ++ [py "Error: Template file '" ++ template_file
                     ++ py "' not found."])
       (calls w ++ [CallIsFile template_file])).
Proof.
  intros template_file Hno. unfold create_missing_flags. fold template_file.
  rewrite run_bind. unfold os_path_isfile at 1 2. cbn [fst snd].
  rewrite Hno. cbn [negb]. by rewrite run_bind.
Qed.

Lemma forallb_succeeded (attempts : list (pystr * option exn)) :
  forallb (fun a => succeeded a.2) attempts = true
  <-> Forall (fun a => a.2 = None) attempts.
Proof.
  rewrite forallb_forall, Forall_forall. unfold succeeded.
  split; intros H a Ha.
  - apply list_elem_of_In, H in Ha. by destruct (a.2).
  - apply list_elem_of_In, H in Ha. by rewrite Ha.
Qed.

(** C6: with the template present, every name of the missing-list gets its
    [shutil.copy2] call, in order, whether or not earlier copies raised, and
    the result is [True] exactly when none of them raised. *)
Theorem create_missing_flags_continues_after_failure (folder_path : pystr)
    (missing_flags : list pystr) (w : world) :
  let template_file := os_path_join folder_path (py "GHO.tga") in
  let attempts := (copy_all (fs w) template_file folder_path missing_flags).1 in
  let r := create_missing_flags folder_path missing_flags w in
  isfile (fs w) template_file = true ->
  map fst attempts = missing_flags
  /\ calls r.2
     = calls w ++ CallIsFile template_file
               :: map (fun a => CallCopy2 template_file
                                  (os_path_join folder_path a.1)
                                  (succeeded a.2)) attempts
  /\ (r.1 = true <-> Forall (fun a => a.2 = None) attempts).
Proof.
  intros template_file attempts r Htemplate. subst r.
  rewrite (create_missing_flags_run _ _ _ Htemplate).
  cbn [fst snd calls]. fold template_file. fold attempts.
  split; [apply copy_all_names|]. split; [done|]. apply forallb_succeeded.
Qed.

(** *** What a copy that returns does to the file system *)

Lemma copyfile_inr (f f' : filesystem) (src dst : pystr) :
  copyfile f src dst = inr f' ->
  isdir f dst = false
  /\ exists data, f' = Fs (<[dst := Reg data]> (nodes f)) (noread f) (nowrite f).
Proof.
  unfold copyfile. destruct (_ && _); [done|].
  destruct (nodes f !! src) as [[data|]|]; try done.
  destruct (decide (src ∈ noread f)); [done|].
  destruct (isdir f dst) eqn:Hd; [done|].
  destruct (decide (dst ∈ nowrite f)); [done|].
  intros [= <-]. eauto.
Qed.

Lemma copy2_isfile_mono (f f' : filesystem) (src dst p : pystr) :
  copy2 f src dst = inr f' -> isfile f p = true -> isfile f' p = true.
Proof.
  unfold copy2. intros (_ & data & ->)%copyfile_inr. unfold isfile. cbn [nodes].
  match goal with |- context [<[?k := _]> _] =>
    destruct (decide (k = p)) as [->|Hne] end.
  - by rewrite lookup_insert_eq.
  - by rewrite lookup_insert_ne.
Qed.

Lemma copy2_isdir (f f' : filesystem) (src dst p : pystr) :
  copy2 f src dst = inr f' -> isdir f' p = isdir f p.
Proof.
  unfold copy2. intros (Hd & data & ->)%copyfile_inr. revert Hd.
  unfold isdir. cbn [nodes].
  match goal with |- context [<[?k := _]> _] =>
    destruct (decide (k = p)) as [->|Hne] end.
  - rewrite lookup_insert_eq. by intros ->.
  - by rewrite lookup_insert_ne.
Qed.

Lemma copy2_creates (f f' : filesystem) (src dst : pystr) :
  copy2 f src dst = inr f' -> isdir f dst = false -> isfile f' dst = true.
Proof.
  unfold copy2. intros H Hd. rewrite Hd in H.
  apply copyfile_inr in H as (_ & data & ->).
  unfold isfile. cbn [nodes]. by rewrite lookup_insert_eq.
Qed.

Lemma copy_all_isfile_mono (f : filesystem) (template folder : pystr)
    (names : list pystr) (p : pystr) :
  isfile f p = true ->
  isfile (copy_all f template folder names).2 p = true.
Proof.
  revert f. induction names as [|n ns IH]; intros f Hp; [done|].
  cbn [copy_all].
  destruct (copy2 f template (os_path_join folder n)) as [e|f1] eqn:E.
  - specialize (IH f Hp). by destruct (copy_all f template folder ns).
  - specialize (IH f1 (copy2_isfile_mono _ _ _ _ _ E Hp)).
    by destruct (copy_all f1 template folder ns).
Qed.

Lemma copy_all_creates (f : filesystem) (template folder : pystr)
    (names : list pystr) :
  forallb (fun a => succeeded a.2) (copy_all f template folder names).1 = true ->
  Forall (fun n => isdir f (os_path_join folder n) = false) names ->
  Forall (fun n => isfile (copy_all f template folder names).2
                     (os_path_join folder n) = true) names.
Proof.
  revert f. induction names as [|n ns IH]; intros f Hok Hnd; [constructor|].
  apply Forall_cons in Hnd as [Hn Hns]. revert Hok. cbn [copy_all].
  destruct (copy2 f template (os_path_join folder n)) as [e|f1] eqn:E.
  - destruct (copy_all f template folder ns). by cbn.
  - assert (Hns1 : Forall (fun m => isdir f1 (os_path_join folder m) = false) ns).
    { eapply Forall_impl; [exact Hns|]. intros m Hm. cbv beta in *.
      by rewrite (copy2_isdir _ _ _ _ _ E). }
    pose proof (IH f1) as IH1.
    pose proof (copy_all_isfile_mono f1 template folder ns
                  (os_path_join folder n) (copy2_creates _ _ _ _ E Hn)) as Hkeep.
    destruct (copy_all f1 template folder ns) as [attempts f']. cbn [fst snd] in *.
    intros Hok. constructor; [exact Hkeep|]. by apply IH1.
Qed.

(** ** TagReader *)

Lemma upper_or_digit_not_space (c : N) :
  upper_or_digit c = true -> isspace c = false.
Proof.
  unfold upper_or_digit. rewrite orb_true_iff, !andb_true_iff, !N.leb_le.
  intros H. apply not_true_is_false. unfold isspace.
  rewrite !orb_true_iff, !andb_true_iff, !N.leb_le, !N.eqb_eq. lia.
Qed.



Lemma star_skips (p : N -> bool) (k : pystr -> option (list pystr))
    (ws rest : pystr) (x : N) (m : list pystr) :
  forallb p ws = true -> p x = false -> k (x :: rest) = Some m ->
  Re.star p k (ws ++ x :: rest) = Some m.
Proof.
  intros Hws Hx Hk. induction ws as [|a ws IH]; cbn [app Re.star].
  - by rewrite Hx.
  - cbn [forallb] in Hws. apply andb_true_iff in Hws as [-> Hws].
    by rewrite IH.
Qed.

(** The pattern of line 28 on a line that starts with a tag, optional
    whitespace and [=]. *)
Lemma tag_pattern_matches (tag ws rest : pystr) :
  is_tag tag -> forallb isspace ws = true ->
  Re.re_match tag_pattern (tag ++ ws ++ 0x3D :: rest) = Some [tag].
Proof.
  intros [Hlen Hcls] Hws.
  destruct tag as [|a [|b [|c [|? ?]]]]; try done.
  cbn [forallb] in Hcls.
  apply andb_true_iff in Hcls as [Ha Hcls].
  apply andb_true_iff in Hcls as [Hb Hcls].
  apply andb_true_iff in Hcls as [Hc _].
  unfold Re.re_match, tag_pattern. cbn [Re.run app]. rewrite Ha, Hb, Hc.
  apply star_skips; [done|done|]. rewrite N.eqb_refl.
  set (tl := ws ++ 0x3D :: rest). cbn [length].
  replace (S (S (S (length tl))) - length tl)%nat with 3%nat by lia.
  reflexivity.
Qed.

Lemma is_tag_head (tag : pystr) :
  is_tag tag -> exists a s, tag = a :: s /\ upper_or_digit a = true.
Proof.
  intros [Hlen Hcls]. destruct tag as [|a s]; [done|].
  cbn [forallb] in Hcls. apply andb_true_iff in Hcls as [Ha _]. eauto.
Qed.

Lemma upper_or_digit_not_hash (c : N) :
  upper_or_digit c = true -> (0x23 =? c) = false.
Proof.
  unfold upper_or_digit. rewrite orb_true_iff, !andb_true_iff, !N.leb_le.
  intros H. apply N.eqb_neq. lia.
Qed.

(** One round of the loop of [read_tags_from_file] on a line that, once
    trimmed, starts with a tag, optional whitespace and [=]. *)
Lemma read_lines_tag (line tag ws after : pystr) (rest : text_stream)
    (tags : list pystr) :
  strip line = tag ++ ws ++ 0x3D :: after ->
  is_tag tag -> forallb isspace ws = true ->
  read_lines (Line line rest) tags = read_lines rest (tags ++ [tag]).
Proof.
  intros Hstrip Htag Hws. cbn [read_lines]. rewrite Hstrip.
  rewrite (tag_pattern_matches _ _ _ Htag Hws).
  destruct (is_tag_head _ Htag) as (a & s & -> & Ha).
  change (py "#") with [0x23]. cbn [app truthy negb orb startswith].
  by rewrite (upper_or_digit_not_hash _ Ha).
Qed.



(** The whole of [read_tags_from_file]. *)
Lemma read_tags_from_file_run (file_path : pystr) (w : world) :
  read_tags_from_file file_path w
  = match read_lines (open_text (fs w) file_path) [] with
    | inr tags =>
        (tags, World (fs w) (stdout w) (calls w ++ [CallOpen file_path]))
    | inl e =>
        ([], World (fs w)
               (stdout w ++ [py "Error reading tags file: " ++ str_exn e])
               (calls w ++ [CallOpen file_path]))
    end.
Proof.
  unfold read_tags_from_file. rewrite run_bind. unfold open_file at 1 2.
  cbn [fst snd]. destruct (read_lines (open_text (fs w) file_path) []); [|done].
  by rewrite run_bind.
Qed.

Lemma read_lines_raises (file : text_stream) (tags : list pystr) (e : exn) :
  stream_error file = Some e -> read_lines file tags = inl e.
Proof.
  revert tags. induction file as [|line rest IH|e']; intros tags H.
  - done.
  - cbn [read_lines stream_error] in *.
    destruct (_ || _); [by apply IH|].
    destruct (Re.re_match tag_pattern (strip line)); by apply IH.
  - by injection H as ->.
Qed.


(** Fewer than three characters before the whitespace and the [=]: one of
    the first three characters of the line is not in [[A-Z0-9]], and the
    pattern of line 28 does not match. *)
Lemma tag_pattern_needs_three (short ws after : pystr) :
  (length short < 3)%nat -> forallb isspace ws = true ->
  Re.re_match tag_pattern (short ++ ws ++ 0x3D :: after) = None.
Proof.
  intros Hlen Hws.
  assert (exists x tl, ws ++ 0x3D :: after = x :: tl
                       /\ upper_or_digit x = false) as (x & tl & -> & Hx).
  { destruct ws as [|c ws]; cbn [app].
    - by exists 0x3D, after.
    - exists c, (ws ++ 0x3D :: after). split; [done|].
      cbn [forallb] in Hws. apply andb_true_iff in Hws as [Hc _].
      destruct (upper_or_digit c) eqn:Hcls; [|done].
      by rewrite (upper_or_digit_not_space _ Hcls) in Hc. }
  clear Hws. unfold Re.re_match, tag_pattern. cbn [Re.run].
  destruct short as [|a [|b [|c short]]]; cbn [app length] in *; [..|lia].
  - by rewrite Hx.
  - destruct (upper_or_digit a); [|done]. by rewrite Hx.
  - destruct (upper_or_digit a); [|done].
    destruct (upper_or_digit b); [|done]. by rewrite Hx.
Qed.

(** One round of the loop on such a line. *)
Lemma read_lines_short (line short ws after : pystr) (rest : text_stream)
    (tags : list pystr) :
  strip line = short ++ ws ++ 0x3D :: after ->
  (length short < 3)%nat -> forallb isspace ws = true ->
  read_lines (Line line rest) tags = read_lines rest tags.
Proof.
  intros Hstrip Hlen Hws. cbn [read_lines]. rewrite Hstrip.
  rewrite (tag_pattern_needs_three _ _ _ Hlen Hws). by destruct (_ || _).
Qed.

(** C2, as the code has it: a line that, once trimmed, starts with exactly
    three characters of [[A-Z0-9]], optional whitespace and [=] adds these
    three characters to the result; a line with fewer than three characters
    before the optional whitespace and the [=], such as a one- or
    two-character declaration, adds nothing. *)
Theorem read_tags_appends_three_character_tag :
  (forall (line tag ws after : pystr) (rest : text_stream)
          (tags : list pystr),
      strip line = tag ++ ws ++ 0x3D :: after ->
      is_tag tag -> forallb isspace ws = true ->
      read_lines (Line line rest) tags = read_lines rest (tags ++ [tag])
      /\ (forall file_path w,
            open_text (fs w) file_path = Line line Eof ->
            (read_tags_from_file file_path w).1 = [tag]))
  /\ (forall (line short ws after : pystr) (rest : text_stream)
             (tags : list pystr),
        strip line = short ++ ws ++ 0x3D :: after ->
        (length short < 3)%nat -> forallb isspace ws = true ->
        read_lines (Line line rest) tags = read_lines rest tags
        /\ (forall file_path w,
              open_text (fs w) file_path = Line line Eof ->
              (read_tags_from_file file_path w).1 = [])).
Proof.
  split.
  - intros line tag ws after rest tags Hstrip Htag Hws. split.
    + by eapply read_lines_tag.
    + intros file_path w Hopen. rewrite read_tags_from_file_run, Hopen.
      by rewrite (read_lines_tag _ _ _ _ _ _ Hstrip Htag Hws).
  - intros line short ws after rest tags Hstrip Hlen Hws. split.
    + by eapply read_lines_short.
    + intros file_path w Hopen. rewrite read_tags_from_file_run, Hopen.
      by rewrite (read_lines_short _ _ _ _ _ _ Hstrip Hlen Hws).
Qed.


(** C8: when opening the tag file or reading it raises, the exception is
    caught, one diagnostic line is printed and the result is the empty
    list. *)
Theorem read_tags_catches_errors (file_path : pystr) (w : world) (e : exn) :
  stream_error (open_text (fs w) file_path) = Some e ->
  read_tags_from_file file_path w
  = ([], World (fs w)
           (stdout w ++ [py "Error reading tags file: " ++ str_exn e])
           (calls w ++ [CallOpen file_path])).
Proof.
  intros H. rewrite read_tags_from_file_run.
  by rewrite (read_lines_raises _ _ _ H).
Qed.

(** C5: when [create_missing_flags] returns [True] on the missing-list of a
    validation pass and has created every name of that list, the next
    validation pass over the same folder and identifiers returns the empty
    list.  Returning [True] means that every name that was not a directory of
    the folder has been created. *)
Theorem revalidation_after_provisioning (folder_path : pystr)
    (tags : list pystr) (auto_fix : bool) (w : world) :
  let first := validate_flags folder_path tags auto_fix w in
  let made := create_missing_flags folder_path first.1 first.2 in
  let created := fun n =>
    isfile (fs made.2) (os_path_join folder_path n) = true in
  made.1 = true ->
  (Forall created first.1 ->
   (validate_flags folder_path tags auto_fix made.2).1 = [])
  /\ (Forall (fun n => isdir (fs w) (os_path_join folder_path n) = false)
        first.1 ->
      Forall created first.1).
Proof.
  cbv zeta. rewrite validate_flags_run. cbn [fst snd].
  set (missing := filter (absent (fs w) folder_path) (candidates tags)).
  set (w1 := World _ _ _). intros Hok.
  set (template_file := os_path_join folder_path (py "GHO.tga")).
  destruct (isfile (fs w1) template_file) eqn:Htemplate.
  2:{ by rewrite (create_missing_flags_no_template _ _ _ Htemplate) in Hok. }
  revert Hok. rewrite (create_missing_flags_run _ _ _ Htemplate).
  rewrite validate_flags_run. cbn [fst snd fs]. fold template_file.
  intros Hok. split.
  - intros Hcreated. apply filter_absent_none, Forall_forall. intros n Hn.
    destruct (isfile (fs w) (os_path_join folder_path n)) eqn:Hwas.
    + by apply copy_all_isfile_mono.
    + rewrite Forall_forall in Hcreated. apply Hcreated.
      apply list_elem_of_filter. by split.
  - intros Hnd. by apply copy_all_creates.
Qed.

(** ** The properties on the sample worlds *)

Lemma validate_flags_returns_absent_witness :
  (validate_flags gfx [py "USA"] false world_complete).1 = []
  /\ (validate_flags gfx [py "USA"] false world_one_missing).1
     = [py "USA_monarchy.tga"].
Proof.
  split.
  - pose proof (validate_flags_returns_absent gfx [py "USA"] false
                  world_complete) as (_ & _ & Hall & _).
    apply Hall. compute_done.
  - pose proof (validate_flags_returns_absent gfx [py "USA"] false
                  world_one_missing) as (_ & _ & _ & Hone).
    apply (Hone [py "USA.tga"; py "USA_fascist.tga"; py "USA_communist.tga"]
                (py "USA_monarchy.tga") [py "USA_republic.tga"]);
      compute_done.
Defined.

(** A repeated identifier is checked twice, and a name it lacks is listed
    twice. *)
Example repeated_identifier_repeats_missing_name :
  (validate_flags gfx [py "USA"; py "USA"] false world_one_missing).1
  = [py "USA_monarchy.tga"; py "USA_monarchy.tga"].
Proof. vm_compute. reflexivity. Qed.

Lemma create_missing_flags_without_template_witness :
  (create_missing_flags gfx [py "USA_fascist.tga"] world_no_template).1 = false
  /\ fs (create_missing_flags gfx [py "USA_fascist.tga"] world_no_template).2
     = fs world_no_template.
Proof.
  rewrite (create_missing_flags_without_template gfx [py "USA_fascist.tga"]
             world_no_template); [done | compute_done].
Defined.

Lemma create_missing_flags_continues_after_failure_witness :
  calls (create_missing_flags gfx [py "USA.tga"; py "USA_fascist.tga"]
           world_readonly).2
  = [ CallIsFile (py "gfx/GHO.tga");
      CallCopy2 (py "gfx/GHO.tga") (py "gfx/USA.tga") false;
      CallCopy2 (py "gfx/GHO.tga") (py "gfx/USA_fascist.tga") true ]
  /\ (create_missing_flags gfx [py "USA.tga"; py "USA_fascist.tga"]
        world_readonly).1 <> true.
Proof.
  pose proof (create_missing_flags_continues_after_failure gfx
                [py "USA.tga"; py "USA_fascist.tga"] world_readonly)
    as H.
  cbv zeta in H. destruct H as (_ & Hcalls & Hres); [compute_done|].
  split.
  - rewrite Hcalls. vm_compute. reflexivity.
  - intros Htrue. apply Hres in Htrue. revert Htrue. vm_compute.
    intros Hall. inversion Hall as [|? ? Hfirst _]. discriminate Hfirst.
Defined.

(** A name that is a directory of the folder: the copy lands inside it,
    [create_missing_flags] returns [True] without having created the name,
    and the name is still missing afterwards. *)
Lemma provisioning_into_a_directory :
  let first := validate_flags gfx [py "USA"] false world_directory in
  let made := create_missing_flags gfx first.1 first.2 in
  let second := validate_flags gfx [py "USA"] false made.2 in
  first.1 = [py "USA.tga"]
  /\ made.1 = true
  /\ isfile (fs made.2) (py "gfx/USA.tga") = false
  /\ isfile (fs made.2) (py "gfx/USA.tga/GHO.tga") = true
  /\ second.1 = [py "USA.tga"].
Proof. vm_compute. repeat split; done. Qed.

Lemma revalidation_after_provisioning_witness :
  (validate_flags gfx [py "USA"] false
     (create_missing_flags gfx
        (validate_flags gfx [py "USA"] false world_one_missing).1
        (validate_flags gfx [py "USA"] false world_one_missing).2).2).1 = [].
Proof.
  pose proof (revalidation_after_provisioning gfx [py "USA"] false
                world_one_missing) as H.
  cbv zeta in H. destruct H as [Hempty Hcreated]; [compute_done|].
  apply Hempty, Hcreated. compute_done.
Defined.

(** C2 as stated fails on a two-character tag: the line has the form the
    claim describes, and nothing is added. *)
Lemma two_character_tag_is_not_read :
  strip (py "AB = x") = py "AB" ++ py " " ++ 0x3D :: py " x"
  /\ forallb upper_or_digit (py "AB") = true
  /\ read_lines (Line (py "AB = x") Eof) [] = inr []
  /\ (read_tags_from_file (py "countries.txt") world_two_letters).1 = [].
Proof. vm_compute. repeat split; done. Qed.

Lemma read_tags_appends_three_character_tag_witness :
  read_lines (Line (py "  USA   = United States") Eof) [py "GHO"]
  = inr [py "GHO"; py "USA"]
  /\ read_lines (Line (py " A = x") Eof) [py "GHO"] = inr [py "GHO"]
  /\ (read_tags_from_file (py "countries.txt") world_two_letters).1 = [].
Proof.
  destruct read_tags_appends_three_character_tag as [Hthree Hshort].
  split; [|split].
  - destruct (Hthree (py "  USA   = United States") (py "USA") (py "   ")
                (py " United States") Eof [py "GHO"]) as [H _];
      [compute_done | split; compute_done | compute_done |].
    rewrite H. reflexivity.
  - destruct (Hshort (py " A = x") (py "A") (py " ") (py " x") Eof
                [py "GHO"]) as [H _];
      [compute_done | compute_done | compute_done |].
    rewrite H. reflexivity.
  - destruct (Hshort (py "AB = x") (py "AB") (py " ") (py " x") Eof [])
      as [_ H]; [compute_done | compute_done | compute_done |].
    apply H. vm_compute. reflexivity.
Defined.


Lemma read_tags_catches_errors_witness :
  (read_tags_from_file (py "missing.txt") world_countries).1 = []
  /\ stdout (read_tags_from_file (py "missing.txt") world_countries).2
     = [py "Error reading tags file: [Errno 2] No such file or directory: 'missing.txt'"].
Proof.
  rewrite (read_tags_catches_errors (py "missing.txt") world_countries
             (FileNotFoundError (py "missing.txt"))); [|compute_done].
  split; vm_compute; reflexivity.
Defined.

(** * Further properties *)

(** ** TagReader: what a match of the pattern means *)

Lemma star_inv (p : N -> bool) (k : pystr -> option (list pystr))
    (s : pystr) (m : list pystr) :
  Re.star p k s = Some m ->
  exists ws rest, s = ws ++ rest /\ forallb p ws = true /\ k rest = Some m.
Proof.
  induction s as [|a s IH]; cbn [Re.star].
  - intros H. by exists [], [].
  - destruct (p a) eqn:Hp.
    + destruct (Re.star p k s) as [m'|] eqn:Hs.
      * intros [= <-]. destruct (IH eq_refl) as (ws & rest & -> & Hws & Hk).
        exists (a :: ws), rest. cbn [forallb]. by rewrite Hp, Hws.
      * intros H. by exists [], (a :: s).
    + intros H. by exists [], (a :: s).
Qed.

(** A match of the pattern of line 28 captures three characters of
    [[A-Z0-9]] that open the line and are followed by whitespace, if any,
    and [=]. *)
Lemma tag_pattern_inv (s : pystr) (m : list pystr) :
  Re.re_match tag_pattern s = Some m ->
  exists tag ws after,
    m = [tag] /\ s = tag ++ ws ++ 0x3D :: after
    /\ is_tag tag /\ forallb isspace ws = true.
Proof.
  unfold Re.re_match, tag_pattern. cbn [Re.run].
  destruct s as [|a [|b [|c s]]]; try done.
  - by destruct (upper_or_digit a).
  - by destruct (upper_or_digit a), (upper_or_digit b).
  - destruct (upper_or_digit a) eqn:Ha; [|done].
    destruct (upper_or_digit b) eqn:Hb; [|done].
    destruct (upper_or_digit c) eqn:Hc; [|done].
    intros (ws & rest & -> & Hws & Hk)%star_inv.
    destruct rest as [|x after]; [done|].
    destruct (N.eqb_spec x 0x3D) as [->|]; [|done].
    injection Hk as <-. exists [a; b; c], ws, after.
    split; [|split; [done|split; [|done]]].
    + set (tl := ws ++ 0x3D :: after). cbn [length app].
      replace (S (S (S (length tl))) - length tl)%nat with 3%nat by lia.
      reflexivity.
    + split; [done|]. cbn [forallb]. by rewrite Ha, Hb, Hc.
Qed.

Lemma read_lines_step (line : pystr) (rest : text_stream) (tags : list pystr) :
  read_lines (Line line rest) tags = read_lines rest tags
  \/ exists tag ws after,
       strip line = tag ++ ws ++ 0x3D :: after
       /\ is_tag tag /\ forallb isspace ws = true
       /\ read_lines (Line line rest) tags = read_lines rest (tags ++ [tag]).
Proof.
  cbn [read_lines]. destruct (_ || _); [by left|].
  destruct (Re.re_match tag_pattern (strip line)) as [m|] eqn:Hm; [|by left].
  apply tag_pattern_inv in Hm as (tag & ws & after & -> & Hs & Htag & Hws).
  right. exists tag, ws, after. by rewrite Hs.
Qed.

Lemma read_lines_tags (file : text_stream) (tags result : list pystr) :
  Forall is_tag tags -> read_lines file tags = inr result ->
  Forall is_tag result.
Proof.
  revert tags. induction file as [|line rest IH|e]; intros tags Htags.
  - by intros [= <-].
  - destruct (read_lines_step line rest tags)
      as [->|(tag & ws & after & _ & Htag & _ & ->)].
    + by apply IH.
    + apply IH, Forall_app. split; [done|]. by constructor.
  - done.
Qed.

(** X1: every identifier [read_tags_from_file] returns is three characters
    of [[A-Z0-9]], whatever the file holds. *)
Theorem read_tags_returns_tags (file_path : pystr) (w : world) :
  Forall is_tag (read_tags_from_file file_path w).1.
Proof.
  rewrite read_tags_from_file_run.
  destruct (read_lines (open_text (fs w) file_path) []) as [e|tags] eqn:H.
  - constructor.
  - cbn [fst]. by eapply read_lines_tags.
Qed.

(** X2: a line adds an identifier only when, once trimmed, it starts with
    three characters of [[A-Z0-9]], optional whitespace and [=]; then it adds
    these three characters, and any other line adds nothing. *)
Theorem read_lines_adds_only_declared_tags (line : pystr)
    (rest : text_stream) (tags : list pystr) :
  (read_lines (Line line rest) tags = read_lines rest tags
   /\ forall tag ws after,
        is_tag tag -> forallb isspace ws = true ->
        strip line <> tag ++ ws ++ 0x3D :: after)
  \/ exists tag ws after,
       strip line = tag ++ ws ++ 0x3D :: after
       /\ is_tag tag /\ forallb isspace ws = true
       /\ read_lines (Line line rest) tags = read_lines rest (tags ++ [tag]).
Proof.
  destruct (Re.re_match tag_pattern (strip line)) as [m|] eqn:Hm.
  - right. apply tag_pattern_inv in Hm as (tag & ws & after & _ & Hs & Htag & Hws).
    exists tag, ws, after. repeat split; try done; try apply Htag.
    by eapply read_lines_tag.
  - left. split.
    + cbn [read_lines]. rewrite Hm. by destruct (_ || _).
    + intros tag ws after Htag Hws Hs.
      by rewrite Hs, (tag_pattern_matches _ _ _ Htag Hws) in Hm.
Qed.

(** X3: [read_tags_from_file] opens the one file it is given and changes
    nothing on disk; it prints nothing, or the one diagnostic line together
    with an empty result. *)
Theorem read_tags_leaves_world (file_path : pystr) (w : world) :
  let r := read_tags_from_file file_path w in
  fs r.2 = fs w
  /\ calls r.2 = calls w ++ [CallOpen file_path]
  /\ (stdout r.2 = stdout w
      \/ exists e, r.1 = []
           /\ stdout r.2
              = stdout w ++ [py "Error reading tags file: " ++ str_exn e]).
Proof.
  cbv zeta. rewrite read_tags_from_file_run.
  destruct (read_lines (open_text (fs w) file_path) []) as [e|tags];
    cbn [fst snd fs stdout calls]; repeat split; eauto.
Qed.

(** ** FlagValidator: the paths it probes *)

Lemma join_relative (a b : pystr) :
  startswith sep b = false -> os_path_join a b = a ++ glue a ++ b.
Proof.
  intros Hb. unfold os_path_join, glue. rewrite Hb.
  by destruct (_ || _).
Qed.

Lemma join_absolute (a b : pystr) :
  startswith sep b = true -> os_path_join a b = b.
Proof. intros Hb. unfold os_path_join. by rewrite Hb. Qed.

Lemma startswith_sep_app (s t : pystr) :
  s <> [] -> startswith sep (s ++ t) = startswith sep s.
Proof. destruct s as [|a s]; [done|]. intros _. reflexivity. Qed.

Lemma is_tag_relative (tag : pystr) :
  is_tag tag -> tag <> [] /\ startswith sep tag = false.
Proof.
  intros (a & s & -> & Ha)%is_tag_head. split; [done|].
  change sep with [0x2F]. cbn [startswith].
  apply andb_false_intro1, N.eqb_neq. revert Ha. unfold upper_or_digit.
  rewrite orb_true_iff, !andb_true_iff, !N.leb_le. lia.
Qed.

Lemma Forall_candidates (P : pystr -> Prop) (tags : list pystr) :
  Forall (fun tag => Forall P (flag_files tag)) tags ->
  Forall P (candidates tags).
Proof.
  unfold candidates. induction 1 as [|t ts Ht _ IH]; [constructor|].
  cbn [map concat]. apply Forall_app. by split.
Qed.

Lemma map_ext_Forall {A B} (f g : A -> B) (l : list A) :
  Forall (fun x => f x = g x) l -> map f l = map g l.
Proof. induction 1 as [|x l Hx _ IH]; [done|]. cbn [map]. by rewrite Hx, IH. Qed.

(** X4: for identifiers made of three characters of [[A-Z0-9]], such as
    [read_tags_from_file] returns, every path [validate_flags] probes is the
    folder, a separator unless the folder is empty or ends with one, and the
    candidate name. *)
Theorem validate_flags_stays_in_folder (folder_path : pystr)
    (tags : list pystr) (auto_fix : bool) (w : world) :
  Forall is_tag tags ->
  calls (validate_flags folder_path tags auto_fix w).2
  = calls w ++ map (fun n => CallIsFile (folder_path ++ glue folder_path ++ n))
                   (candidates tags).
Proof.
  intros Htags. rewrite validate_flags_run. cbn [snd calls]. f_equal.
  apply map_ext_Forall, Forall_candidates.
  eapply Forall_impl; [exact Htags|]. intros tag [Hne Hrel]%is_tag_relative.
  unfold flag_files.
  repeat (constructor;
          [by rewrite join_relative by by rewrite startswith_sep_app|]).
  constructor.
Qed.

(** X5: an identifier that starts with [/] makes [os.path.join] drop the
    folder: the five paths probed for it are the bare candidate names. *)
Theorem validate_flags_absolute_tags (folder_path : pystr)
    (tags : list pystr) (auto_fix : bool) (w : world) :
  Forall (fun tag => startswith sep tag = true) tags ->
  calls (validate_flags folder_path tags auto_fix w).2
  = calls w ++ map CallIsFile (candidates tags).
Proof.
  intros Htags. rewrite validate_flags_run. cbn [snd calls]. f_equal.
  apply map_ext_Forall, Forall_candidates.
  eapply Forall_impl; [exact Htags|]. intros tag Habs.
  assert (tag <> []) as Hne by (by destruct tag).
  unfold flag_files.
  repeat (constructor;
          [by rewrite join_absolute by by rewrite startswith_sep_app|]).
  constructor.
Qed.

(** ** FlagProvisioner: what it writes and what it leaves alone *)

(** A [shutil.copy2] that returns has written the data of [src] at the
    destination, or under the base name of [src] inside it, and nowhere
    else. *)
Lemma copy2_inr (f f' : filesystem) (src dst : pystr) :
  copy2 f src dst = inr f' ->
  exists dst' data,
    (dst' = dst \/ dst' = os_path_join dst (os_path_basename src))
    /\ nodes f !! src = Some (Reg data) /\ src <> dst'
    /\ isdir f dst' = false
    /\ f' = Fs (<[dst' := Reg data]> (nodes f)) (noread f) (nowrite f).
Proof.
  unfold copy2.
  set (dst' := if isdir f dst then _ else _).
  assert (dst' = dst \/ dst' = os_path_join dst (os_path_basename src)) as Hd
    by (subst dst'; destruct (isdir f dst); auto).
  clearbody dst'. unfold copyfile.
  destruct (bool_decide (src = dst') && _) eqn:Hsame; [done|].
  destruct (nodes f !! src) as [[data|]|] eqn:Hsrc; try done.
  destruct (decide (src ∈ noread f)); [done|].
  destruct (isdir f dst') eqn:Hdir; [done|].
  destruct (decide (dst' ∈ nowrite f)); [done|].
  intros [= <-]. exists dst', data. repeat split; try done.
  intros ->. revert Hsame. rewrite bool_decide_eq_true_2 by done.
  unfold isfile. by rewrite Hsrc.
Qed.

(** What every returning copy preserves is preserved by the loop. *)
Lemma copy_all_preserves (P : filesystem -> Prop) (template folder : pystr)
    (names : list pystr) (f : filesystem) :
  P f ->
  (forall f0 f1 n,
      n ∈ names -> P f0 ->
      copy2 f0 template (os_path_join folder n) = inr f1 -> P f1) ->
  P (copy_all f template folder names).2.
Proof.
  revert f. induction names as [|n ns IH]; intros f Hf Hstep; [done|].
  cbn [copy_all].
  destruct (copy2 f template (os_path_join folder n)) as [e|f1] eqn:E.
  - assert (P (copy_all f template folder ns).2) as H.
    { apply IH; [done|]. intros f0 f2 m Hm. apply Hstep. by right. }
    by destruct (copy_all f template folder ns).
  - assert (P (copy_all f1 template folder ns).2) as H.
    { apply IH.
      - eapply (Hstep f f1 n); [by left|done|done].
      - intros f0 f2 m Hm. apply Hstep. by right. }
    by destruct (copy_all f1 template folder ns).
Qed.

(** The same for the whole function, with or without the template. *)
Lemma create_missing_flags_preserves (P : filesystem -> Prop)
    (folder_path : pystr) (missing_flags : list pystr) (w : world) :
  let template_file := os_path_join folder_path (py "GHO.tga") in
  P (fs w) ->
  (forall f0 f1 n,
      n ∈ missing_flags -> P f0 ->
      copy2 f0 template_file (os_path_join folder_path n) = inr f1 -> P f1) ->
  P (fs (create_missing_flags folder_path missing_flags w).2).
Proof.
  intros template_file Hw Hstep.
  destruct (isfile (fs w) template_file) eqn:Htemplate.
  - rewrite (create_missing_flags_run _ _ _ Htemplate). cbn [snd fs].
    by apply copy_all_preserves.
  - by rewrite (create_missing_flags_no_template _ _ _ Htemplate).
Qed.

Lemma create_missing_flags_monotone (folder_path : pystr)
    (missing_flags : list pystr) (w : world) (p : pystr) :
  let f' := fs (create_missing_flags folder_path missing_flags w).2 in
  (isfile (fs w) p = true -> isfile f' p = true)
  /\ isdir f' p = isdir (fs w) p.
Proof.
  apply (create_missing_flags_preserves
           (fun f => (isfile (fs w) p = true -> isfile f p = true)
                     /\ isdir f p = isdir (fs w) p)); [done|].
  intros f0 f1 n _ [Hfile Hdir] Hcopy. split.
  - intros H. eapply copy2_isfile_mono; [exact Hcopy|auto].
  - by rewrite (copy2_isdir _ _ _ _ _ Hcopy).
Qed.

(** X6: [create_missing_flags] removes nothing: what was a regular file
    before the call is one after it, and the directories are the same, with
    or without the template and whether or not copies fail. *)
Theorem create_missing_flags_keeps_files (folder_path : pystr)
    (missing_flags : list pystr) (w : world) (p : pystr) :
  let f' := fs (create_missing_flags folder_path missing_flags w).2 in
  (isfile (fs w) p = true -> isfile f' p = true)
  /\ isdir f' p = isdir (fs w) p.
Proof. apply create_missing_flags_monotone. Qed.





(** X8: every file [create_missing_flags] writes holds the data of the
    template, and the template itself is left as it is. *)
Theorem create_missing_flags_copies_template (folder_path : pystr)
    (missing_flags : list pystr) (w : world) (data : text_stream) :
  let template_file := os_path_join folder_path (py "GHO.tga") in
  let f' := fs (create_missing_flags folder_path missing_flags w).2 in
  nodes (fs w) !! template_file = Some (Reg data) ->
  nodes f' !! template_file = Some (Reg data)
  /\ forall p, nodes f' !! p = nodes (fs w) !! p
               \/ nodes f' !! p = Some (Reg data).
Proof.
  intros template_file f' Hdata. subst f'.
  apply (create_missing_flags_preserves
           (fun f => nodes f !! template_file = Some (Reg data)
                     /\ forall p, nodes f !! p = nodes (fs w) !! p
                                  \/ nodes f !! p = Some (Reg data)));
    [by auto|].
  intros f0 f1 n _ [Ht Hall] (dst' & d & _ & Hsrc & Hne & _ & ->)%copy2_inr.
  fold template_file in Hsrc, Hne. rewrite Ht in Hsrc. injection Hsrc as <-.
  cbn [nodes]. split.
  - by rewrite lookup_insert_ne.
  - intros p. destruct (decide (dst' = p)) as [->|Hp].
    + right. by rewrite lookup_insert_eq.
    + rewrite lookup_insert_ne by done. apply Hall.
Qed.

Lemma attempts_accounted (attempts : list (pystr * option exn)) :
  (length (errors_of attempts) + length (created_of attempts))%nat
  = length attempts
  /\ created_of attempts `sublist_of` map fst attempts.
Proof.
  unfold errors_of, created_of, omap.
  induction attempts as [|[n [e|]] attempts [IHlen IHsub]]; [done|..];
    cbn [list_omap List.filter map fst snd succeeded length]; split.
  - lia.
  - by apply sublist_cons.
  - lia.
  - by apply sublist_skip.
Qed.

(** X9: with the template present, every name of the missing-list is
    reported once: by an [Error creating] line, printed as the copy fails,
    or in the list of created files printed at the end, which keeps the order
    of the missing-list. *)
Theorem create_missing_flags_reports_every_name (folder_path : pystr)
    (missing_flags : list pystr) (w : world) :
  let template_file := os_path_join folder_path (py "GHO.tga") in
  let attempts := (copy_all (fs w) template_file folder_path missing_flags).1 in
  let r := create_missing_flags folder_path missing_flags w in
  isfile (fs w) template_file = true ->
  stdout r.2
  = stdout w ++ errors_of attempts ++ created_report (created_of attempts)
  /\ (length (errors_of attempts) + length (created_of attempts))%nat
     = length missing_flags
  /\ created_of attempts `sublist_of` missing_flags.
Proof.
  intros template_file attempts r Htemplate. subst r.
  rewrite (create_missing_flags_run _ _ _ Htemplate). cbn [snd stdout].
  fold template_file. fold attempts.
  destruct (attempts_accounted attempts) as [Hlen Hsub].
  assert (map fst attempts = missing_flags) as Hnames by apply copy_all_names.
  rewrite Hnames in Hsub. split; [done|]. split; [|done].
  by rewrite Hlen, <- (length_map fst attempts), Hnames.
Qed.

Lemma copy2_onto_itself (f : filesystem) (path : pystr) :
  isfile f path = true -> copy2 f path path = inl (SameFileError path path).
Proof.
  intros Hfile. unfold copy2.
  assert (isdir f path = false) as ->.
  { revert Hfile. unfold isfile, isdir. by destruct (nodes f !! path) as [[]|]. }
  unfold copyfile. by rewrite bool_decide_eq_true_2, Hfile.
Qed.

Lemma copy_all_onto_template (f : filesystem) (template folder : pystr)
    (names : list pystr) (n : pystr) :
  isfile f template = true -> n ∈ names ->
  os_path_join folder n = template ->
  forallb (fun a => succeeded a.2) (copy_all f template folder names).1
  = false.
Proof.
  intros Hfile Hn Hjoin. revert f Hfile.
  induction names as [|m ms IH]; intros f Hfile; [by apply elem_of_nil in Hn|].
  cbn [copy_all]. apply elem_of_cons in Hn as [<-|Hn].
  - rewrite Hjoin, (copy2_onto_itself _ _ Hfile).
    by destruct (copy_all f template folder ms).
  - destruct (copy2 f template (os_path_join folder m)) as [e|f1] eqn:E.
    + by destruct (copy_all f template folder ms).
    + specialize (IH Hn f1 (copy2_isfile_mono _ _ _ _ _ E Hfile)).
      destruct (copy_all f1 template folder ms). cbn [fst snd forallb] in *.
      by rewrite IH.
Qed.

(** X10: asking for [GHO.tga] itself makes the run fail: copying the
    template onto itself raises, so the function returns [False]. *)
Theorem create_missing_flags_template_in_list (folder_path : pystr)
    (missing_flags : list pystr) (w : world) :
  isfile (fs w) (os_path_join folder_path (py "GHO.tga")) = true ->
  py "GHO.tga" ∈ missing_flags ->
  (create_missing_flags folder_path missing_flags w).1 = false.
Proof.
  intros Htemplate Hin. rewrite (create_missing_flags_run _ _ _ Htemplate).
  cbn [fst]. by eapply copy_all_onto_template.
Qed.

Lemma filter_sublist_mono {A} (P Q : A -> Prop) `{!forall x, Decision (P x)}
    `{!forall x, Decision (Q x)} (l : list A) :
  (forall x, P x -> Q x) -> filter P l `sublist_of` filter Q l.
Proof.
  intros HPQ. induction l as [|x l IH]; [done|].
  rewrite !filter_cons. destruct (decide (P x)) as [HP|HP].
  - rewrite decide_True by auto. by apply sublist_skip.
  - destruct (decide (Q x)); [by apply sublist_cons|done].
Qed.

(** X11: a provisioning never makes things worse for the validator: after
    [create_missing_flags], on any list of names and whatever its result, a
    validation pass reports a sublist of what the pass before it reported. *)
Theorem validation_shrinks_after_provisioning (folder_path : pystr)
    (tags names : list pystr) (auto_fix : bool) (w : world) :
  let first := validate_flags folder_path tags auto_fix w in
  let made := create_missing_flags folder_path names first.2 in
  let second := validate_flags folder_path tags auto_fix made.2 in
  second.1 `sublist_of` first.1.
Proof.
  cbv zeta. rewrite !validate_flags_run. cbn [fst snd].
  apply filter_sublist_mono. intros n. unfold absent.
  match goal with |- context [create_missing_flags _ _ ?w1] =>
    destruct (create_missing_flags_monotone folder_path names w1
                (os_path_join folder_path n)) as [Hmono _] end.
  cbn [fs] in Hmono.
  destruct (isfile (fs w) (os_path_join folder_path n)); [|done].
  intros Habs. by rewrite Hmono in Habs.
Qed.

(** ** The driver *)

(** The driver once its two paths have been typed, step by step. *)
Lemma main_run (lower : pystr -> pystr) (l1 l2 : pystr)
    (rest ps : list pystr) (w : world) :
  let folder_path := strip l1 in
  let asked :=
    (ps ++ [py "Enter the path to the folder containing the flag files: "])
    ++ [py "Enter the path to the countries.txt file: "] in
  let question :=
    nl ++ py "Do you want to create the missing flags? (y/n): " in
  let read := read_tags_from_file (strip l2) w in
  main lower (Console (l1 :: l2 :: rest) ps) w
  = if negb (truthy read.1)
    then (Some tt, Console rest asked,
          (print (py "No valid country tags found in the file. Exiting.")
                 read.2).2)
    else
      let w2 :=
        (print (nl ++ py "=== Initial Flag Check ===")
           (print (py "Found " ++ str_int (length read.1)
                   ++ py " country tags: " ++ str_join (py ", ") read.1)
                  read.2).2).2 in
      let first := validate_flags folder_path read.1 false w2 in
      if truthy first.1
      then match rest with
           | [] => (None, Console [] (asked ++ [question]), first.2)
           | l3 :: rest' =>
               let c3 := Console rest' (asked ++ [question]) in
               if decide (lower (strip l3) = py "y")
               then
                 let made :=
                   create_missing_flags folder_path first.1
                     (print (nl ++ py "=== Creating Missing Flags ===")
                            first.2).2 in
                 if made.1
                 then (Some tt, c3,
                       (validate_flags folder_path read.1 false
                          (print (nl ++ py "=== Verification Flag Check ===")
                                 made.2).2).2)
                 else (Some tt, c3,
                       (print (nl ++ py "Some files could not be created. Please check the errors above.")
                              made.2).2)
               else (Some tt, c3, first.2)
           end
      else (Some tt, Console rest asked,
            (print (nl ++ py "No need to create any missing files.")
                   first.2).2).
Proof.
  cbv zeta.
  cbv [main mbind Script_bind mret Script_ret lift input stdin prompts].
  destruct (read_tags_from_file (strip l2) w) as [tags w1]. cbn [fst snd].
  destruct (negb (truthy tags)); [done|].
  cbn [print fst snd].
  destruct (validate_flags (strip l1) tags false _) as [missing w3].
  cbn [fst snd]. destruct (truthy missing); [|done].
  destruct rest as [|l3 rest']; [done|].
  destruct (decide (lower (strip l3) = py "y")); [|done].
  destruct (create_missing_flags (strip l1) missing _) as [[] w5];
    cbn [fst snd]; [|done].
  by destruct (validate_flags (strip l1) tags false _).
Qed.

Lemma read_tags_fs (file_path : pystr) (w : world) :
  fs (read_tags_from_file file_path w).2 = fs w.
Proof.
  rewrite read_tags_from_file_run.
  by destruct (read_lines (open_text (fs w) file_path) []).
Qed.

Lemma validate_flags_fs (folder_path : pystr) (tags : list pystr)
    (auto_fix : bool) (w : world) :
  fs (validate_flags folder_path tags auto_fix w).2 = fs w.
Proof. by rewrite validate_flags_run. Qed.

Lemma truthy_nonempty {A} (l : list A) : l <> [] -> truthy l = true.
Proof. by destruct l. Qed.

(** X12: when the input ends before both paths have been typed, the
    [EOFError] of [input] ends the script: nothing has been read from disk,
    printed or written. *)
Theorem main_stops_at_end_of_input (lower : pystr -> pystr) (c : console)
    (w : world) :
  (length (stdin c) < 2)%nat ->
  (main lower c w).1.1 = None
  /\ stdin (main lower c w).1.2 = []
  /\ (main lower c w).2 = w.
Proof.
  destruct c as [[|l1 [|l2 rest]] ps]; cbn [stdin length]; [done|done|lia].
Qed.

(** X13: when the tag file gives no identifier (it cannot be read, or no
    line declares one), the driver says so and stops: the folder is never
    probed and nothing is written. *)
Theorem main_without_tags (lower : pystr -> pystr) (l1 l2 : pystr)
    (rest ps : list pystr) (w : world) :
  let r := main lower (Console (l1 :: l2 :: rest) ps) w in
  (read_tags_from_file (strip l2) w).1 = [] ->
  r.1.1 = Some tt
  /\ stdin r.1.2 = rest
  /\ fs r.2 = fs w
  /\ calls r.2 = calls w ++ [CallOpen (strip l2)]
  /\ last (stdout r.2)
     = Some (py "No valid country tags found in the file. Exiting.").
Proof.
  intros r Hnone. subst r. rewrite main_run. cbv zeta. rewrite Hnone.
  cbn [truthy negb fst snd stdin print fs calls stdout].
  rewrite read_tags_fs, last_snoc. repeat split.
  rewrite read_tags_from_file_run.
  by destruct (read_lines (open_text (fs w) (strip l2)) []).
Qed.

(** X14: the driver writes to disk only after the answer [y]: if the third
    line typed, trimmed and lower-cased, is anything else, or is not there,
    the file system at the end is the one at the start. *)
Theorem main_writes_only_on_yes (lower : pystr -> pystr) (c : console)
    (w : world) :
  (forall l1 l2 l3 rest,
      stdin c = l1 :: l2 :: l3 :: rest -> lower (strip l3) <> py "y") ->
  fs (main lower c w).2 = fs w.
Proof.
  intros Hno. destruct c as [[|l1 [|l2 rest]] ps]; [done|done|].
  rewrite main_run. cbv zeta. cbn [stdin] in Hno.
  destruct (negb _).
  { cbn [print snd fs]. apply read_tags_fs. }
  destruct (truthy _).
  - destruct rest as [|l3 rest'].
    + cbn [snd]. rewrite validate_flags_fs. cbn [print snd fs].
      apply read_tags_fs.
    + destruct (decide _) as [Hyes|_];
        [by destruct (Hno _ _ _ _ eq_refl Hyes)|].
      cbn [snd]. rewrite validate_flags_fs. cbn [print snd fs].
      apply read_tags_fs.
  - cbn [print snd fs]. rewrite validate_flags_fs. cbn [print snd fs].
    apply read_tags_fs.
Qed.

(** X15: when every required file is there, the driver asks nothing more
    after the two paths, writes nothing and ends on [No need to create any
    missing files.] *)
Theorem main_nothing_missing (lower : pystr -> pystr) (l1 l2 : pystr)
    (rest ps : list pystr) (w : world) :
  let r := main lower (Console (l1 :: l2 :: rest) ps) w in
  let tags := (read_tags_from_file (strip l2) w).1 in
  tags <> [] ->
  Forall (fun n => isfile (fs w) (os_path_join (strip l1) n) = true)
         (candidates tags) ->
  r.1.1 = Some tt
  /\ stdin r.1.2 = rest
  /\ length (prompts r.1.2) = (length ps + 2)%nat
  /\ fs r.2 = fs w
  /\ last (stdout r.2)
     = Some (nl ++ py "No need to create any missing files.").
Proof.
  intros r tags Htags Hall. subst r. rewrite main_run. cbv zeta.
  fold tags. rewrite (truthy_nonempty _ Htags). cbn [negb].
  rewrite validate_flags_run. cbn [fst snd print fs stdout calls].
  rewrite read_tags_fs, (filter_absent_none _ _ _ Hall).
  cbn [truthy fst snd stdin prompts fs stdout]. rewrite last_snoc.
  repeat split. rewrite !length_app. cbn [length]. lia.
Qed.





Lemma read_tags_calls (file_path : pystr) (w : world) :
  calls (read_tags_from_file file_path w).2 = calls w ++ [CallOpen file_path].
Proof.
  rewrite read_tags_from_file_run.
  by destruct (read_lines (open_text (fs w) file_path) []).
Qed.

(** X17: the answer [y] without a template: the driver reports that files
    could not be created and leaves the file system as it was; after the one
    validation pass its only library call is the look for the template, so
    there is no copy and no verification pass. *)
Theorem main_yes_without_template (lower : pystr -> pystr) (l1 l2 l3 : pystr)
    (rest ps : list pystr) (w : world) :
  let folder_path := strip l1 in
  let template_file := os_path_join folder_path (py "GHO.tga") in
  let tags := (read_tags_from_file (strip l2) w).1 in
  let r := main lower (Console (l1 :: l2 :: l3 :: rest) ps) w in
  tags <> [] ->
  filter (absent (fs w) folder_path) (candidates tags) <> [] ->
  lower (strip l3) = py "y" ->
  isfile (fs w) template_file = false ->
  r.1.1 = Some tt
  /\ fs r.2 = fs w
  /\ calls r.2
     = calls w ++ [CallOpen (strip l2)]
       ++ map (fun n => CallIsFile (os_path_join folder_path n))
              (candidates tags)
       ++ [CallIsFile template_file]
  /\ last (stdout r.2)
     = Some (nl ++ py "Some files could not be created. Please check the errors above.").
Proof.
  intros folder_path template_file tags r Htags Hmissing Hyes Hnone.
  subst r. rewrite main_run. cbv zeta. fold tags folder_path.
  rewrite (truthy_nonempty _ Htags). cbn [negb].
  rewrite validate_flags_run. cbn [fst snd print fs stdout calls].
  rewrite read_tags_fs, read_tags_calls. rewrite (truthy_nonempty _ Hmissing).
  rewrite decide_True by done.
  rewrite create_missing_flags_no_template by done.
  cbn [fst snd fs stdout calls]. rewrite last_snoc.
  fold template_file. repeat split. by rewrite <- !app_assoc.
Qed.

(** ** FlagValidator on distinct identifiers *)

Lemma flag_files_as_map (tag : pystr) :
  flag_files tag
  = map (app tag) [ py ".tga"; py "_fascist.tga"; py "_communist.tga";
                    py "_monarchy.tga"; py "_republic.tga" ].
Proof. reflexivity. Qed.

Lemma flag_files_NoDup (tag : pystr) : NoDup (flag_files tag).
Proof.
  rewrite flag_files_as_map.
  apply (NoDup_fmap_2 (app tag)). clear tag. compute_done.
Qed.

Lemma flag_files_tag (t1 t2 n : pystr) :
  length t1 = length t2 -> n ∈ flag_files t1 -> n ∈ flag_files t2 -> t1 = t2.
Proof.
  rewrite !flag_files_as_map, !list_elem_of_fmap.
  intros Hlen (s1 & -> & _) (s2 & Heq & _).
  by apply app_inj_1 in Heq as [? _].
Qed.

Lemma candidates_NoDup (tags : list pystr) :
  Forall is_tag tags -> NoDup tags -> NoDup (candidates tags).
Proof.
  unfold candidates. intros Htags Hnd.
  induction Hnd as [|t ts Ht Hnd IH]; [constructor|].
  apply Forall_cons in Htags as [[Hlen _] Hts].
  cbn [map concat]. apply NoDup_app.
  split; [apply flag_files_NoDup|]. split; [|by apply IH].
  intros n Hn (l & Hl & Hnl)%list_elem_of_In%in_concat.
  apply in_map_iff in Hl as (t' & <- & Ht'%list_elem_of_In).
  apply list_elem_of_In in Hnl.
  rewrite Forall_forall in Hts. destruct (Hts t' Ht') as [Hlen' _].
  assert (t = t') as -> by (eapply flag_files_tag; [congruence|done|done]).
  done.
Qed.

(** X18: for distinct identifiers of three characters of [[A-Z0-9]], no
    file name is checked twice and the missing-list has no repetition. *)
Theorem validate_flags_no_repetition (folder_path : pystr)
    (tags : list pystr) (auto_fix : bool) (w : world) :
  Forall is_tag tags -> NoDup tags ->
  NoDup (candidates tags)
  /\ NoDup (validate_flags folder_path tags auto_fix w).1.
Proof.
  intros Htags Hnd. rewrite validate_flags_run. cbn [fst].
  pose proof (candidates_NoDup _ Htags Hnd) as H.
  split; [done|]. by apply NoDup_filter.
Qed.

(** ** The further properties on the sample worlds *)

Lemma validate_flags_stays_in_folder_witness :
  calls (validate_flags gfx [py "USA"] false world_one_missing).2
  = map (fun n => CallIsFile (py "gfx/" ++ n)) (flag_files (py "USA")).
Proof.
  rewrite (validate_flags_stays_in_folder gfx [py "USA"] false
             world_one_missing); [reflexivity|].
  repeat constructor.
Defined.

Lemma validate_flags_absolute_tags_witness :
  calls (validate_flags gfx [py "/tmp/USA"] false world_one_missing).2
  = map CallIsFile (flag_files (py "/tmp/USA")).
Proof.
  rewrite (validate_flags_absolute_tags gfx [py "/tmp/USA"] false
             world_one_missing); [reflexivity|].
  repeat constructor.
Defined.

Lemma create_missing_flags_keeps_files_witness :
  isfile (fs (create_missing_flags gfx [py "USA_monarchy.tga"]
                world_one_missing).2) (py "gfx/USA.tga") = true.
Proof.
  apply (create_missing_flags_keeps_files gfx [py "USA_monarchy.tga"]
           world_one_missing (py "gfx/USA.tga")).
  compute_done.
Defined.


Lemma create_missing_flags_copies_template_witness :
  nodes (fs (create_missing_flags gfx [py "USA_monarchy.tga"]
               world_one_missing).2) !! py "gfx/GHO.tga"
  = Some (Reg Eof).
Proof.
  apply (create_missing_flags_copies_template gfx [py "USA_monarchy.tga"]
           world_one_missing Eof).
  vm_compute. reflexivity.
Defined.

Lemma create_missing_flags_reports_every_name_witness :
  stdout (create_missing_flags gfx [py "USA.tga"; py "USA_fascist.tga"]
            world_readonly).2
  = [ py "Error creating USA.tga: [Errno 13] Permission denied: 'gfx/USA.tga'";
      nl ++ py "Created the following flag files:";
      py "- USA_fascist.tga" ].
Proof.
  pose proof (create_missing_flags_reports_every_name gfx
                [py "USA.tga"; py "USA_fascist.tga"] world_readonly) as H.
  cbv zeta in H. destruct H as (Hout & _ & _); [compute_done|].
  rewrite Hout. vm_compute. reflexivity.
Defined.

Lemma create_missing_flags_template_in_list_witness :
  (create_missing_flags gfx [py "GHO.tga"] world_complete).1 = false.
Proof.
  apply create_missing_flags_template_in_list; compute_done.
Defined.

Lemma main_stops_at_end_of_input_witness :
  (main ascii_lower (Console [py "gfx"] []) world_driver).1.1 = None.
Proof.
  apply (main_stops_at_end_of_input ascii_lower (Console [py "gfx"] [])
           world_driver).
  cbn [stdin length]. lia.
Defined.

Lemma main_without_tags_witness :
  fs (main ascii_lower (Console [py "gfx"; py "missing.txt"] [])
        world_driver).2
  = fs world_driver.
Proof.
  apply (main_without_tags ascii_lower (py "gfx") (py "missing.txt") [] []
           world_driver).
  vm_compute. reflexivity.
Defined.

Lemma main_writes_only_on_yes_witness :
  fs (main ascii_lower (Console [py "gfx"; py "countries.txt"; py "no"] [])
        world_driver).2
  = fs world_driver.
Proof.
  apply main_writes_only_on_yes. cbn [stdin].
  intros l1 l2 l3 rest [= <- <- <- <-]. vm_compute. discriminate.
Defined.

Lemma main_nothing_missing_witness :
  stdin (main ascii_lower
           (Console [py "gfx"; py "countries.txt"; py "unread"] [])
           world_driver_complete).1.2
  = [py "unread"].
Proof.
  apply (main_nothing_missing ascii_lower (py "gfx") (py "countries.txt")
           [py "unread"] [] world_driver_complete).
  - vm_compute. discriminate.
  - compute_done.
Defined.


Lemma main_yes_without_template_witness :
  fs (main ascii_lower (Console [py "gfx"; py "countries.txt"; py "y"] [])
        world_driver_no_template).2
  = fs world_driver_no_template.
Proof.
  apply (main_yes_without_template ascii_lower (py "gfx")
           (py "countries.txt") (py "y") [] [] world_driver_no_template).
  - vm_compute. discriminate.
  - vm_compute. discriminate.
  - vm_compute. reflexivity.
  - vm_compute. reflexivity.
Defined.

Lemma validate_flags_no_repetition_witness :
  NoDup (validate_flags gfx [py "USA"; py "GHO"] false world_one_missing).1.
Proof.
  apply (validate_flags_no_repetition gfx [py "USA"; py "GHO"] false
           world_one_missing).
  - repeat constructor.
  - compute_done.
Defined.
